(** * Hydraulic conductivity predictor (src/app.py): validation and zoning

    The script of [src/app.py] is embedded as a function from the values of
    its nine number inputs, the state of its button and the loaded model to
    the sequence of elements it renders.  Python floats are IEEE 754
    binary64 values: they are modelled by [spec_float] with the binary64
    parameters, comparisons by [SFleb] and [SFltb], and [+], [-] and [abs]
    by the correctly rounded [SFadd], [SFsub] and by [SFabs]. *)

From Stdlib Require Import ZArith Lia Bool Ascii String.
From Stdlib Require Import Floats.SpecFloat.
From stdpp Require Import base list.

Open Scope Z_scope.

(** ** Binary64 values *)

Module F64.

Definition prec : Z := 53.
Definition emax : Z := 1024.

Definition float := spec_float.

Definition add (x y : float) : float := SFadd prec emax x y.
Definition sub (x y : float) : float := SFsub prec emax x y.
Definition div (x y : float) : float := SFdiv prec emax x y.
Definition abs (x : float) : float := SFabs x.
Definition ltb (x y : float) : bool := SFltb x y.
Definition leb (x y : float) : bool := SFleb x y.
Definition valid (x : float) : bool := valid_binary prec emax x.

(** An integer literal, and a Python [int] operand converted to float. *)
Definition of_Z (z : Z) : float := binary_normalize prec emax z 0 false.

(** The decimal literal [n / 10^k]: both operands are exact for
    [|n| < 2^53] and [k <= 15], and the division rounds to nearest even, so
    the result is the binary64 value nearest to the decimal, as Python reads
    the literal. *)
Definition dec (n : Z) (k : Z) : float := div (of_Z n) (of_Z (10 ^ k)).

(** The exact value of [x] times [2^k], an integer for a finite [x] whose
    exponent is at least [-k]. *)
Definition scaled (k : Z) (x : float) : Z :=
  match x with
  | S754_finite s m e => (if s then -1 else 1) * Zpos m * 2 ^ (e + k)
  | _ => 0
  end.

(** Neither infinite nor NaN. *)
Definition is_finite (x : float) : bool :=
  match x with
  | S754_zero _ | S754_finite _ _ _ => true
  | S754_infinity _ | S754_nan => false
  end.

Definition is_nan (x : float) : bool :=
  match x with
  | S754_nan => true
  | _ => false
  end.

End F64.

Abbreviation float := F64.float.

Infix "+." := F64.add (at level 50, left associativity).
Infix "-." := F64.sub (at level 50, left associativity).
Infix "<?." := F64.ltb (at level 65, no associativity).
Infix "<=?." := F64.leb (at level 65, no associativity).

(** ** What the script renders, and how it can fail *)

(** The Streamlit calls of the script, as the page elements they produce. *)
Inductive element : Type :=
  | PageConfig (page_title layout : string)
  | Title (body : string)
  | Markdown (body : string)
  | Subheader (body : string)
  | NumberInput (label : string) (min_value max_value value : float)
  | Button (label : string)
  | Write (body : string)
  | Success (body : string)
  | Warning (body : string)
  | Error (body : string).

(** An exception raised by an external call ([joblib.load], the model's
    [predict]), or by indexing an empty array. *)
Inductive exn : Type :=
  | Raised (what : string)
  | IndexError.

(** A run of the script: the elements rendered so far, and either the
    exception that ended the run or a value. *)
Definition UI (A : Type) : Type := list element * (exn + A).

Module UI.

Definition ret {A} (a : A) : UI A := ([], inr a).

Definition bind {A B} (m : UI A) (k : A -> UI B) : UI B :=
  match m with
  | (out, inl e) => (out, inl e)
  | (out, inr a) => let '(out', r) := k a in (out ++ out', r)
  end.

Definition emit (e : element) : UI unit := ([e], inr tt).

(** The outcome of an external call: its exception propagates. *)
Definition call {A} (r : exn + A) : UI A := ([], r).

(** [for x in l: body x] *)
Fixpoint for_each {A} (l : list A) (body : A -> UI unit) : UI unit :=
  match l with
  | [] => ret tt
  | x :: l' => bind (body x) (fun _ => for_each l' body)
  end.

Definition rendered {A} (m : UI A) : list element := fst m.

Definition outcome {A} (m : UI A) : exn + A := snd m.

End UI.

Declare Scope ui_scope.
Delimit Scope ui_scope with ui.
Notation "x <- m ;; k" := (UI.bind m (fun x => k))
  (at level 100, m at next level, k at level 200, right associativity) : ui_scope.
Notation "m ;; k" := (UI.bind m (fun _ => k))
  (at level 100, k at level 200, right associativity) : ui_scope.
Open Scope ui_scope.

(** ** The script *)

Definition nl : string := String "010"%char EmptyString.

Infix "+:+" := String.append (at level 60, right associativity).

(** The values of the nine number inputs, named as the script's variables. *)
Record Request : Type := {
  FA : float; SCBA : float; EC : float;
  LL : float; PI : float; FSI : float;
  MDUW : float; OMC : float; UCS : float
}.

(** The object returned by [joblib.load]: only its [predict] is used.  It
    takes a two-dimensional array and returns one prediction per row, or
    raises. *)
Record Model : Type := {
  predict : list (list float) -> exn + list float
}.

(** [st.number_input(label, min_value, max_value, value)] renders the
    widget and returns its current value [cur]. *)
Definition number_input (label : string) (lo hi dflt : Z) (cur : float) : UI float :=
  UI.emit (NumberInput label (F64.of_Z lo) (F64.of_Z hi) (F64.of_Z dflt));;
  UI.ret cur.

(** [st.button(label)] renders the button and returns whether it was
    pressed. *)
Definition button (label : string) (pressed : bool) : UI bool :=
  UI.emit (Button label);;
  UI.ret pressed.

(** The bounds the widgets enforce on their values. *)
Definition between (lo hi : Z) (x : float) : bool :=
  (F64.of_Z lo <=?. x) && (x <=?. F64.of_Z hi).

Definition in_range (r : Request) : bool :=
  between 0 100 (FA r) && between 0 100 (SCBA r) && between 0 100 (EC r) &&
  between 20 120 (LL r) && between 5 80 (PI r) && between 0 200 (FSI r) &&
  between 10 25 (MDUW r) && between 5 40 (OMC r) && between 50 1000 (UCS r).

(** Sections 1 and 2 of the script, up to the loading of the model. *)
Definition page_header : UI unit :=
  UI.emit (PageConfig "Hydraulic Conductivity Predictor" "centered");;
  UI.emit (Title "Hydraulic Conductivity Prediction for Landfill Liners");;
  UI.emit (Markdown ("**Regulatory Criterion (USEPA & MOEF):**  " +:+ nl +:+
                     "$\mathbf{HC \le 1 \times 10^{-7}\;cm/s}$")).

(** Section 3: the nine inputs. *)
Definition input_section (cur : Request) : UI Request :=
  UI.emit (Subheader "Input Parameters");;
  fa <- number_input "Fly Ash (%)" 0 100 10 (FA cur);;
  scba <- number_input "SCBA (%)" 0 100 10 (SCBA cur);;
  ec <- number_input "Expansive Clay (%)" 0 100 80 (EC cur);;
  ll <- number_input "Liquid Limit (%)" 20 120 70 (LL cur);;
  pi <- number_input "Plasticity Index (%)" 5 80 31 (PI cur);;
  fsi <- number_input "Free Swell Index (%)" 0 200 38 (FSI cur);;
  mduw <- number_input "Maximum Dry Unit Weight (kN/m³)" 10 25 14 (MDUW cur);;
  omc <- number_input "Optimum Moisture Content (%)" 5 40 32 (OMC cur);;
  ucs <- number_input "UCS (28 days, kPa)" 50 1000 321 (UCS cur);;
  UI.ret {| FA := fa; SCBA := scba; EC := ec; LL := ll; PI := pi; FSI := fsi;
            MDUW := mduw; OMC := omc; UCS := ucs |}.

(** Section 4: input validation. *)
Definition composition_warning : string :=
  "⚠ FA + SCBA + EC should sum to 100%".
Definition strength_warning : string :=
  "⚠ UCS < 200 kPa (may not satisfy liner strength requirement)".
Definition atterberg_warning : string :=
  "⚠ Liquid Limit should be greater than Plasticity Index".

(** [abs(FA + SCBA + EC - 100)], evaluated left to right in binary64. *)
Definition composition_gap (r : Request) : float :=
  F64.abs (FA r +. SCBA r +. EC r -. F64.of_Z 100).

Definition composition_off (r : Request) : bool :=
  F64.of_Z 1 <?. composition_gap r.

Definition strength_low (r : Request) : bool := UCS r <?. F64.of_Z 200.

Definition atterberg_off (r : Request) : bool := LL r <?. PI r.

Definition validate (r : Request) : list string :=
  let warnings := [] in
  let warnings :=
    if composition_off r then warnings ++ [composition_warning] else warnings in
  let warnings :=
    if strength_low r then warnings ++ [strength_warning] else warnings in
  let warnings :=
    if atterberg_off r then warnings ++ [atterberg_warning] else warnings in
  warnings.

Definition validation_section (r : Request) : UI unit :=
  let warnings := validate r in
  match warnings with
  | [] => UI.ret tt
  | _ => UI.for_each warnings (fun w => UI.emit (Warning w))
  end.

(** Sections 5 and 6: prediction and the traffic-light acceptance logic. *)

(** [np.array([[FA, SCBA, EC, LL, PI, FSI, MDUW, OMC, UCS]])]: one row. *)
Definition feature_matrix (r : Request) : list (list float) :=
  [[FA r; SCBA r; EC r; LL r; PI r; FSI r; MDUW r; OMC r; UCS r]].

(** [a[0]] on a one-dimensional array. *)
Definition first_item (a : list float) : exn + float :=
  match a with
  | [] => inl IndexError
  | y :: _ => inr y
  end.

(** The three branches of the acceptance logic, named as its comments name
    them. *)
Inductive zone : Type := GREEN | AMBER | RED.

(** The order GREEN < AMBER < RED of the zones, from best to worst. *)
Definition zone_rank (z : zone) : nat :=
  match z with
  | GREEN => 0
  | AMBER => 1
  | RED => 2
  end.

Definition zone_le (z1 z2 : zone) : bool := Nat.leb (zone_rank z1) (zone_rank z2).

Definition green_limit : float := F64.dec (-70) 1.   (* -7.0 *)
Definition amber_limit : float := F64.dec (-65) 1.   (* -6.5 *)

Definition classify (predicted_log_hc : float) : zone :=
  if predicted_log_hc <=?. green_limit then GREEN
  else if (green_limit <?. predicted_log_hc) && (predicted_log_hc <=?. amber_limit)
  then AMBER
  else RED.

Definition banner (z : zone) : element :=
  match z with
  | GREEN =>
      Success "🟢 ACCEPTABLE (Green Zone): Fully complies with USEPA & MOEF criteria"
  | AMBER =>
      Warning ("🟡 ACCEPTABLE WITH CAUTION (Amber Zone):" +:+ nl +:+ nl +:+
               "Prediction is within experimental uncertainty limits." +:+ nl +:+
               "Complies with landfill liner criteria considering laboratory variability.")
  | RED =>
      Error ("🔴 NOT ACCEPTABLE (Red Zone):" +:+ nl +:+ nl +:+
             "Does NOT comply with USEPA & MOEF landfill liner hydraulic conductivity requirement.")
  end.

Definition closing_note : element :=
  Markdown ("---" +:+ nl +:+
            "**Note:** Predictions are based on a machine learning model trained on " +:+
            "experimental FA–SCBA–EC liner data. Laboratory validation is recommended.").

Section Script.

(** Library operations the script uses and this development leaves open:
    the binary64 power of numpy and the two float formats of the
    f-strings. *)
Variable power : float -> float -> float.
Variable format_4f : float -> string.
Variable format_2e : float -> string.

Definition predicted_hc_of (predicted_log_hc : float) : float :=
  power (F64.of_Z 10) predicted_log_hc.

Definition prediction_section (model : Model) (r : Request) : UI unit :=
  let X := feature_matrix r in
  predictions <- UI.call (predict model X);;
  predicted_log_hc <- UI.call (first_item predictions);;
  let predicted_hc := predicted_hc_of predicted_log_hc in
  UI.emit (Subheader "Prediction Results");;
  UI.emit (Write ("**Predicted log₁₀(HC):** " +:+ format_4f predicted_log_hc));;
  UI.emit (Write ("**Predicted HC:** " +:+ format_2e predicted_hc +:+ " cm/s"));;
  UI.emit (banner (classify predicted_log_hc));;
  UI.emit closing_note.

(** One run of the script: [artifact] is the outcome of
    [joblib.load("rf_gwo_model.pkl")], [cur] the current values of the
    inputs and [pressed] whether the button was pressed. *)
Definition app (artifact : exn + Model) (cur : Request) (pressed : bool) : UI unit :=
  page_header;;
  model <- UI.call artifact;;
  r <- input_section cur;;
  validation_section r;;
  clicked <- button "Predict Hydraulic Conductivity" pressed;;
  if clicked then prediction_section model r else UI.ret tt.

(** What a run renders up to and including the button. *)
Definition before_prediction (r : Request) : list element :=
  UI.rendered page_header ++ UI.rendered (input_section r) ++
  map Warning (validate r) ++ [Button "Predict Hydraulic Conductivity"].

(** What the prediction section renders for the prediction [y]. *)
Definition result_elements (y : float) : list element :=
  [ Subheader "Prediction Results";
    Write ("**Predicted log₁₀(HC):** " +:+ format_4f y);
    Write ("**Predicted HC:** " +:+ format_2e (predicted_hc_of y) +:+ " cm/s");
    banner (classify y);
    closing_note ].

End Script.

(** A request from decimal values with two digits after the point. *)
Definition request_of (fa scba ec ll pi fsi mduw omc ucs : Z) : Request :=
  {| FA := F64.dec fa 2; SCBA := F64.dec scba 2; EC := F64.dec ec 2;
     LL := F64.dec ll 2; PI := F64.dec pi 2; FSI := F64.dec fsi 2;
     MDUW := F64.dec mduw 2; OMC := F64.dec omc 2; UCS := F64.dec ucs 2 |}.

(** The default values of the widgets. *)
Definition default_request : Request :=
  request_of 1000 1000 8000 7000 3100 3800 1400 3200 32100.

(** A request within the bounds that breaks all three rules. *)
Definition poor_request : Request :=
  request_of 500 500 8000 2000 3100 3800 1400 3200 15000.

Definition shape_error : exn :=
  Raised "ValueError: X has 9 features, but the model is expecting 8 features as input.".

(** Percentages that add up to 101.00 in decimal, and percentages whose
    binary64 values add up to more than 101. *)
Definition edge_request_high : Request :=
  request_of 1537 7993 570 7000 3100 3800 1400 3200 32100.
Definition edge_request_low : Request :=
  request_of 1033 4179 4888 7000 3100 3800 1400 3200 32100.

Definition const_model (y : float) : Model := {| predict := fun _ => inr [y] |}.
Definition failing_model (e : exn) : Model := {| predict := fun _ => inl e |}.

(** The order of the features as the specification gives it:
    [FA, SCBA, EC, LL, PI, FSI, MDUW, OMC, UCS]. *)
Definition spec_feature_order : list (Request -> float) :=
  [FA; SCBA; EC; LL; PI; FSI; MDUW; OMC; UCS].

(** A run surfaces a failed prediction when it ends normally and shows
    an error message. *)
Definition failure_is_surfaced (run : UI unit) : Prop :=
  UI.outcome run = inr tt /\ exists msg, In (Error msg) (UI.rendered run).

(** The warnings selected by the three rules, in the order of the rules. *)
Definition selected_warnings (composition strength atterberg : bool) : list string :=
  (if composition then [composition_warning] else []) ++
  (if strength then [strength_warning] else []) ++
  (if atterberg then [atterberg_warning] else []).

(** A model given by a function of the feature matrix. *)
Definition model_of (k : list (list float) -> float) : Model :=
  {| predict := fun X => inr [k X] |}.

(** The verdict elements: [st.success] and [st.error] are used by the
    acceptance logic only. *)
Definition is_verdict (e : element) : bool :=
  match e with
  | Success _ | Error _ => true
  | _ => false
  end.

(** The label of a number input, and whether its declared value lies
    within its declared bounds. *)
Definition widget_label (e : element) : option string :=
  match e with
  | NumberInput label _ _ _ => Some label
  | _ => None
  end.

Definition widget_consistent (e : element) : bool :=
  match e with
  | NumberInput _ lo hi value => (lo <=?. value) && (value <=?. hi)
  | _ => false
  end.

(** The values the number inputs declare, in the order of the page. *)
Definition declared_values (page : list element) : list float :=
  omap (fun e => match e with
                 | NumberInput _ _ _ value => Some value
                 | _ => None
                 end) page.

(** A model that returns no prediction. *)
Definition empty_model : Model := {| predict := fun _ => inr [] |}.

(** A request with other swell and compaction values. *)
Definition with_swell_compaction (r : Request) (fsi mduw omc : float) : Request :=
  {| FA := FA r; SCBA := SCBA r; EC := EC r; LL := LL r; PI := PI r;
     FSI := fsi; MDUW := mduw; OMC := omc; UCS := UCS r |}.

(** Stand-ins for the three library operations, to run the script on
    concrete inputs; no statement below depends on what they compute. *)
Module Sample.

Definition power (_ x : float) : float := x.
Definition format_4f (_ : float) : string := "<.4f>".
Definition format_2e (_ : float) : string := "<.2e>".

Definition app := app power format_4f format_2e.
Definition result_elements := result_elements power format_4f format_2e.

End Sample.

(** ** Order facts of the binary64 comparison

    [SFcompare] orders the non-NaN values as a total preorder; every
    comparison with NaN is false.  The facts below hold for every
    [spec_float], so in particular for the valid binary64 values. *)

Module F64Facts.

Import F64.

Lemma compare_antisym (x y : float) :
  SFcompare y x = option_map CompOpp (SFcompare x y).
Proof.
  destruct x as [[]|[]| |[] mx ex], y as [[]|[]| |[] my ey]; simpl; try reflexivity;
    change (Pos.compare_cont Eq my mx) with (Pos.compare my mx);
    change (Pos.compare_cont Eq mx my) with (Pos.compare mx my);
    rewrite (Z.compare_antisym ey ex), (Pos.compare_antisym my mx);
    destruct (ey ?= ex)%Z, (my ?= mx)%positive; reflexivity.
Qed.

Lemma ltb_leb_false (x y : float) : x <?. y = true -> y <=?. x = false.
Proof.
  unfold ltb, leb, SFltb, SFleb. rewrite (compare_antisym x y).
  destruct (SFcompare x y) as [[]|]; simpl; congruence.
Qed.

Lemma leb_ltb_false (x y : float) : x <=?. y = true -> y <?. x = false.
Proof.
  unfold ltb, leb, SFltb, SFleb. rewrite (compare_antisym x y).
  destruct (SFcompare x y) as [[]|]; simpl; congruence.
Qed.

Lemma ltb_leb (x y : float) : x <?. y = true -> x <=?. y = true.
Proof.
  unfold ltb, leb, SFltb, SFleb.
  destruct (SFcompare x y) as [[]|]; simpl; congruence.
Qed.

(** Without NaN the order is total: [x <= y] is the negation of [y < x]. *)
Lemma leb_negb_ltb (x y : float) :
  is_nan x = false -> is_nan y = false -> x <=?. y = negb (y <?. x).
Proof.
  unfold ltb, leb, SFltb, SFleb. rewrite (compare_antisym x y).
  destruct x as [[]|[]| |[] mx ex], y as [[]|[]| |[] my ey]; simpl;
    try discriminate; try reflexivity; intros _ _;
    destruct (ex ?= ey)%Z; try reflexivity;
    destruct (Pos.compare_cont Eq mx my); reflexivity.
Qed.

Lemma leb_not_nan (x y : float) :
  x <=?. y = true -> is_nan x = false /\ is_nan y = false.
Proof.
  destruct x as [[]|[]| |[] mx ex], y as [[]|[]| |[] my ey];
    simpl; try discriminate; auto.
Qed.

Lemma ltb_not_nan (x y : float) :
  x <?. y = true -> is_nan x = false /\ is_nan y = false.
Proof. intros H. apply leb_not_nan, ltb_leb, H. Qed.

(** Case analysis on the exponent and mantissa comparisons of two finite
    values. *)
Ltac cmp_cases :=
  repeat match goal with
    | H : context [Pos.compare_cont Eq ?a ?b] |- _ =>
        change (Pos.compare_cont Eq a b) with (Pos.compare a b) in H
    | |- context [Pos.compare_cont Eq ?a ?b] =>
        change (Pos.compare_cont Eq a b) with (Pos.compare a b)
    end;
  repeat match goal with
    | H : context [Z.compare ?a ?b] |- _ =>
        destruct (Z.compare_spec a b); simpl in H; try discriminate H
    | H : context [Pos.compare ?a ?b] |- _ =>
        destruct (Pos.compare_spec a b); simpl in H; try discriminate H
    end;
  repeat match goal with
    | |- context [Z.compare ?a ?b] =>
        destruct (Z.compare_spec a b); simpl; try reflexivity; try lia
    | |- context [Pos.compare ?a ?b] =>
        destruct (Pos.compare_spec a b); simpl; try reflexivity; try lia
    end.

Lemma leb_trans (x y z : float) :
  x <=?. y = true -> y <=?. z = true -> x <=?. z = true.
Proof.
  unfold leb, SFleb.
  destruct x as [[]|[]| |[] mx ex], y as [[]|[]| |[] my ey],
    z as [[]|[]| |[] mz ez]; simpl; try discriminate; try reflexivity;
    intros Hxy Hyz; cmp_cases.
Qed.

Lemma ltb_leb_trans (x y z : float) :
  x <?. y = true -> y <=?. z = true -> x <?. z = true.
Proof.
  unfold ltb, leb, SFltb, SFleb.
  destruct x as [[]|[]| |[] mx ex], y as [[]|[]| |[] my ey],
    z as [[]|[]| |[] mz ez]; simpl; try discriminate; try reflexivity;
    intros Hxy Hyz; cmp_cases.
Qed.

Lemma leb_ltb_trans (x y z : float) :
  x <=?. y = true -> y <?. z = true -> x <?. z = true.
Proof.
  unfold ltb, leb, SFltb, SFleb.
  destruct x as [[]|[]| |[] mx ex], y as [[]|[]| |[] my ey],
    z as [[]|[]| |[] mz ez]; simpl; try discriminate; try reflexivity;
    intros Hxy Hyz; cmp_cases.
Qed.

End F64Facts.

(** ** The limits of the acceptance logic *)

Module Limits.

Import F64 F64Facts.

Lemma green_limit_eq : green_limit = S754_finite true 7881299347898368 (-50).
Proof. reflexivity. Qed.

Lemma amber_limit_eq : amber_limit = S754_finite true 7318349394477056 (-50).
Proof. reflexivity. Qed.

Lemma green_lt_amber : green_limit <?. amber_limit = true.
Proof. reflexivity. Qed.

Lemma above_amber_not_green (x : float) :
  amber_limit <?. x = true -> x <=?. green_limit = false.
Proof.
  intros H. apply ltb_leb_false.
  apply (ltb_leb_trans _ amber_limit); [exact green_lt_amber | apply ltb_leb, H].
Qed.

Lemma green_is_below_amber (x : float) :
  x <=?. green_limit = true -> x <=?. amber_limit = true.
Proof.
  intros H. apply (leb_trans _ green_limit); [exact H|reflexivity].
Qed.

(** The three tests of the acceptance logic in terms of two comparisons. *)
Lemma classify_cases (x : float) :
  classify x =
    if x <=?. green_limit then GREEN
    else if x <=?. amber_limit then AMBER else RED.
Proof.
  unfold classify.
  destruct (x <=?. green_limit) eqn:Hg; [reflexivity|].
  destruct (x <=?. amber_limit) eqn:Ha; [|now rewrite andb_false_r].
  destruct (leb_not_nan _ _ Ha) as [Hx _].
  rewrite (leb_negb_ltb x green_limit Hx eq_refl) in Hg.
  apply negb_false_iff in Hg. now rewrite Hg.
Qed.

End Limits.

(** ** Runs of the script *)

Module UIFacts.

Lemma bind_emit {B} (e : element) (k : unit -> UI B) :
  UI.bind (UI.emit e) k = (e :: UI.rendered (k tt), UI.outcome (k tt)).
Proof. unfold UI.bind, UI.emit. now destruct (k tt). Qed.

Lemma bind_call_ok {A B} (a : A) (k : A -> UI B) :
  UI.bind (UI.call (inr a)) k = k a.
Proof. unfold UI.bind, UI.call. now destruct (k a). Qed.

Lemma bind_call_raise {A B} (e : exn) (k : A -> UI B) :
  UI.bind (UI.call (inl e)) k = ([], inl e).
Proof. reflexivity. Qed.

Lemma bind_value {A B} (out : list element) (a : A) (k : A -> UI B) :
  UI.bind (out, inr a) k = (out ++ UI.rendered (k a), UI.outcome (k a)).
Proof. unfold UI.bind. now destruct (k a). Qed.

Lemma for_each_warning (l : list string) :
  UI.for_each l (fun w => UI.emit (Warning w)) = (map Warning l, inr tt).
Proof.
  induction l as [|w l IH]; [reflexivity|].
  cbn [UI.for_each map]. now rewrite bind_emit, IH.
Qed.

End UIFacts.

Section ScriptFacts.

Variable power : float -> float -> float.
Variable format_4f : float -> string.
Variable format_2e : float -> string.

Local Abbreviation run := (app power format_4f format_2e).
Local Abbreviation predicting := (prediction_section power format_4f format_2e).
Local Abbreviation results := (result_elements power format_4f format_2e).

Lemma input_section_value (cur : Request) :
  UI.outcome (input_section cur) = inr cur.
Proof. now destruct cur. Qed.

Lemma validation_section_eq (r : Request) :
  validation_section r = (map Warning (validate r), inr tt).
Proof.
  unfold validation_section.
  destruct (validate r) eqn:E; [reflexivity|].
  apply UIFacts.for_each_warning.
Qed.

(** A run with a loaded model renders everything up to the button, then
    the prediction section if the button was pressed. *)
Lemma app_loaded (m : Model) (r : Request) (pressed : bool) :
  run (inr m) r pressed =
    if pressed
    then (before_prediction r ++ UI.rendered (predicting m r),
          UI.outcome (predicting m r))
    else (before_prediction r, inr tt).
Proof.
  unfold app, before_prediction.
  rewrite (surjective_pairing page_header).
  change (snd page_header) with (@inr exn unit tt).
  rewrite UIFacts.bind_value, UIFacts.bind_call_ok.
  rewrite (surjective_pairing (input_section r)).
  change (snd (input_section r)) with (UI.outcome (input_section r)).
  rewrite input_section_value, UIFacts.bind_value.
  rewrite validation_section_eq, UIFacts.bind_value.
  unfold button. rewrite UIFacts.bind_emit. cbn [UI.rendered UI.outcome fst snd UI.ret].
  rewrite UIFacts.bind_value.
  destruct pressed; cbn [UI.rendered UI.outcome fst snd UI.ret];
    rewrite ?app_nil_r, <- ?app_assoc; reflexivity.
Qed.

(** A run whose model could not be loaded renders the page header only. *)
Lemma app_not_loaded (e : exn) (r : Request) (pressed : bool) :
  run (inl e) r pressed = (UI.rendered page_header, inl e).
Proof. reflexivity. Qed.

Lemma prediction_section_ok (m : Model) (r : Request) (y : float) (ys : list float) :
  predict m (feature_matrix r) = inr (y :: ys) ->
  predicting m r = (results y, inr tt).
Proof.
  intros H. unfold prediction_section. now rewrite H.
Qed.

Lemma prediction_section_raise (m : Model) (r : Request) (e : exn) :
  predict m (feature_matrix r) = inl e ->
  predicting m r = ([], inl e).
Proof.
  intros H. unfold prediction_section. now rewrite H.
Qed.

Lemma prediction_section_empty (m : Model) (r : Request) :
  predict m (feature_matrix r) = inr [] ->
  predicting m r = ([], inl IndexError).
Proof.
  intros H. unfold prediction_section. now rewrite H.
Qed.

End ScriptFacts.

(** ** Rounded sums are never NaN

    Adding or subtracting finite values rounds to a finite value, a zero or
    an infinity, never to NaN. *)

Module F64Rounding.

Import F64.

Lemma shr_1_nonneg (mrs : shr_record) : 0 <= shr_m mrs -> 0 <= shr_m (shr_1 mrs).
Proof.
  destruct mrs as [m r s]. simpl.
  destruct m as [|[p|p|]|[p|p|]]; simpl; lia.
Qed.

Lemma iter_shr_1_nonneg (p : positive) (mrs : shr_record) :
  0 <= shr_m mrs -> 0 <= shr_m (SpecFloat.iter_pos shr_1 p mrs).
Proof.
  revert mrs. induction p as [p IH|p IH|]; intros mrs H; simpl.
  - apply IH, IH, shr_1_nonneg, H.
  - apply IH, IH, H.
  - apply shr_1_nonneg, H.
Qed.

Lemma shr_fexp_nonneg (m e : Z) (l : location) :
  0 <= m -> 0 <= shr_m (fst (shr_fexp prec emax m e l)).
Proof.
  intros H. unfold shr_fexp, shr.
  assert (H0 : 0 <= shr_m (shr_record_of_loc m l)) by (now destruct l as [|[]]).
  destruct (fexp prec emax (Zdigits2 m + e) - e); simpl; auto.
  now apply iter_shr_1_nonneg.
Qed.

Lemma round_nearest_even_nonneg (m : Z) (l : location) :
  0 <= m -> 0 <= round_nearest_even m l.
Proof.
  intros H. destruct l as [|[]]; simpl; try lia.
  destruct (Z.even m); lia.
Qed.

Lemma binary_round_aux_not_nan (s : bool) (m e : Z) (l : location) :
  0 <= m -> is_nan (binary_round_aux prec emax s m e l) = false.
Proof.
  intros H. unfold binary_round_aux.
  pose proof (shr_fexp_nonneg m e l H) as H1.
  destruct (shr_fexp prec emax m e l) as [mrs' e']. simpl in H1.
  pose proof (shr_fexp_nonneg _ e' loc_Exact
                (round_nearest_even_nonneg _ (loc_of_shr_record mrs') H1)) as H2.
  destruct (shr_fexp prec emax _ e' loc_Exact) as [mrs'' e'']. simpl in H2.
  destruct (shr_m mrs'') as [|p|p]; [reflexivity| |lia].
  now destruct (e'' <=? emax - prec).
Qed.

Lemma binary_normalize_not_nan (m e : Z) (s : bool) :
  is_nan (binary_normalize prec emax m e s) = false.
Proof.
  destruct m as [|p|p]; [reflexivity| |]; simpl; unfold binary_round;
    destruct (shl_align _ _ _) as [mz ez];
    now apply binary_round_aux_not_nan.
Qed.

Lemma add_not_nan (x y : float) :
  is_nan x = false -> is_finite y = true -> is_nan (x +. y) = false.
Proof.
  unfold add.
  destruct x as [[]|[]| |sx mx ex], y as [[]|[]| |sy my ey];
    try discriminate; try reflexivity; intros _ _.
  apply binary_normalize_not_nan.
Qed.

Lemma sub_not_nan (x y : float) :
  is_nan x = false -> is_finite y = true -> is_nan (x -. y) = false.
Proof.
  unfold sub.
  destruct x as [[]|[]| |sx mx ex], y as [[]|[]| |sy my ey];
    try discriminate; try reflexivity; intros _ _.
  apply binary_normalize_not_nan.
Qed.

Lemma abs_not_nan (x : float) : is_nan (abs x) = is_nan x.
Proof. now destruct x. Qed.

Lemma finite_not_nan (x : float) : is_finite x = true -> is_nan x = false.
Proof. now destruct x. Qed.

Lemma finite_of_bounds (a b x : float) :
  is_finite a = true -> is_finite b = true ->
  a <=?. x = true -> x <=?. b = true -> is_finite x = true.
Proof.
  destruct a as [[]|[]| |sa ma ea], b as [[]|[]| |sb mb eb],
    x as [[]|[]| |sx mx ex]; try discriminate; reflexivity.
Qed.

End F64Rounding.

(** ** The validator *)

Module ValidateFacts.

Import F64.

Ltac strings_differ :=
  let H := fresh in
  intros H; apply String.eqb_eq in H; vm_compute in H; discriminate H.

Lemma composition_strength : composition_warning <> strength_warning.
Proof. strings_differ. Qed.

Lemma composition_atterberg : composition_warning <> atterberg_warning.
Proof. strings_differ. Qed.

Lemma strength_atterberg : strength_warning <> atterberg_warning.
Proof. strings_differ. Qed.

(** The list built by the three appends. *)
Lemma validate_eq (r : Request) :
  validate r =
    selected_warnings (composition_off r) (strength_low r) (atterberg_off r).
Proof.
  unfold validate, selected_warnings.
  now destruct (composition_off r), (strength_low r), (atterberg_off r).
Qed.

Lemma In_validate (w : string) (r : Request) :
  In w (validate r) <->
    (w = composition_warning /\ composition_off r = true) \/
    (w = strength_warning /\ strength_low r = true) \/
    (w = atterberg_warning /\ atterberg_off r = true).
Proof.
  rewrite validate_eq. unfold selected_warnings.
  destruct (composition_off r), (strength_low r), (atterberg_off r);
    simpl; intuition congruence.
Qed.

Lemma In_composition (r : Request) :
  In composition_warning (validate r) <-> composition_off r = true.
Proof.
  rewrite In_validate.
  pose proof composition_strength. pose proof composition_atterberg.
  intuition congruence.
Qed.

Lemma In_strength (r : Request) :
  In strength_warning (validate r) <-> strength_low r = true.
Proof.
  rewrite In_validate.
  pose proof composition_strength. pose proof strength_atterberg.
  intuition congruence.
Qed.

Lemma In_atterberg (r : Request) :
  In atterberg_warning (validate r) <-> atterberg_off r = true.
Proof.
  rewrite In_validate.
  pose proof composition_atterberg. pose proof strength_atterberg.
  intuition congruence.
Qed.

Lemma between_finite (lo hi : Z) (x : float) :
  is_finite (of_Z lo) = true -> is_finite (of_Z hi) = true ->
  between lo hi x = true -> is_finite x = true.
Proof.
  intros Hlo Hhi H. apply andb_true_iff in H as [H1 H2].
  exact (F64Rounding.finite_of_bounds _ _ _ Hlo Hhi H1 H2).
Qed.

(** The values of a request within the bounds of the widgets are finite. *)
Lemma in_range_finite (r : Request) :
  in_range r = true ->
  is_finite (FA r) = true /\ is_finite (SCBA r) = true /\
  is_finite (EC r) = true /\ is_finite (LL r) = true /\
  is_finite (PI r) = true /\ is_finite (UCS r) = true.
Proof.
  unfold in_range. rewrite !andb_true_iff.
  intros [[[[[[[[H1 H2] H3] H4] H5] H6] H7] H8] H9].
  repeat apply conj; eapply between_finite; try eassumption; reflexivity.
Qed.

Lemma composition_gap_not_nan (r : Request) :
  in_range r = true -> is_nan (composition_gap r) = false.
Proof.
  intros H. destruct (in_range_finite r H) as (Hfa & Hscba & Hec & _).
  unfold composition_gap. rewrite F64Rounding.abs_not_nan.
  apply F64Rounding.sub_not_nan; [|reflexivity].
  apply F64Rounding.add_not_nan; [|exact Hec].
  apply F64Rounding.add_not_nan; [|exact Hscba].
  now apply F64Rounding.finite_not_nan.
Qed.

End ValidateFacts.

(** ** Warnings in a run *)

Section RunFacts.

Variable power : float -> float -> float.
Variable format_4f : float -> string.
Variable format_2e : float -> string.

Local Abbreviation run := (app power format_4f format_2e).
Local Abbreviation predicting := (prediction_section power format_4f format_2e).
Local Abbreviation results := (result_elements power format_4f format_2e).

Lemma header_no_warning (w : string) : ~ In (Warning w) (UI.rendered page_header).
Proof. cbv. intuition discriminate. Qed.

Lemma inputs_no_warning (w : string) (r : Request) :
  ~ In (Warning w) (UI.rendered (input_section r)).
Proof. destruct r. vm_compute. intuition discriminate. Qed.

Lemma In_warning_before (w : string) (r : Request) :
  In (Warning w) (before_prediction r) <-> In w (validate r).
Proof.
  unfold before_prediction. rewrite !List.in_app_iff, List.in_map_iff.
  pose proof (header_no_warning w). pose proof (inputs_no_warning w r).
  split.
  - intros [?|[?|[(w' & Hw & Hin)|[?|[]]]]]; try tauto; try discriminate.
    now injection Hw as <-.
  - intros Hin. right. right. left. now exists w.
Qed.

(** The only warning element of the prediction section is the amber
    banner. *)
Lemma In_warning_results (w : string) (y : float) :
  In (Warning w) (results y) -> Warning w = banner AMBER.
Proof.
  unfold result_elements. cbn [In].
  intros [H|[H|[H|[H|[H|[]]]]]]; try discriminate.
  destruct (classify y); try discriminate. now symmetry.
Qed.

Lemma rendered_predicting (m : Model) (r : Request) :
  UI.rendered (predicting m r) = [] \/
  exists y, UI.rendered (predicting m r) = results y.
Proof.
  destruct (predict m (feature_matrix r)) as [e|[|y ys]] eqn:E.
  - left. now rewrite (prediction_section_raise _ _ _ _ _ _ E).
  - left. now rewrite (prediction_section_empty _ _ _ _ _ E).
  - right. exists y. now rewrite (prediction_section_ok _ _ _ _ _ _ _ E).
Qed.

(** A validation warning is on the page exactly when the validator
    returned it, whether or not a prediction follows. *)
Lemma validation_warning_rendered (m : Model) (r : Request) (pressed : bool)
    (w : string) :
  Warning w <> banner AMBER ->
  In (Warning w) (UI.rendered (run (inr m) r pressed)) <-> In w (validate r).
Proof.
  intros Hw. rewrite app_loaded.
  destruct pressed; unfold UI.rendered at 1; cbn [fst].
  - rewrite List.in_app_iff, In_warning_before. split; [|tauto].
    intros [H|H]; [exact H|].
    destruct (rendered_predicting m r) as [E|[y E]]; rewrite E in H.
    + destruct H.
    + now apply In_warning_results in H.
  - apply In_warning_before.
Qed.

Ltac elements_differ :=
  let H := fresh in
  intros H; cbv in H; discriminate H.

Lemma composition_not_banner : Warning composition_warning <> banner AMBER.
Proof. elements_differ. Qed.

Lemma strength_not_banner : Warning strength_warning <> banner AMBER.
Proof. elements_differ. Qed.

Lemma atterberg_not_banner : Warning atterberg_warning <> banner AMBER.
Proof. elements_differ. Qed.

End RunFacts.

(** ** The classifier *)

(** C1: the classifier is a total function of the predicted log
    conductivity into the three zones with inclusive lower boundaries:
    [x <= -7.0] gives GREEN and nothing else does, [-7.0 < x <= -6.5] gives
    AMBER and nothing else does, [x > -6.5] gives RED (as does every value
    that is not [<= -6.5]); exactly -7.0 is GREEN and exactly -6.5 is AMBER,
    and the decimal neighbours of the boundaries named by the
    specification fall on the stated sides. *)
Theorem classify_boundaries (x : float) :
  (classify x = GREEN <-> x <=?. green_limit = true) /\
  (classify x = AMBER <->
     green_limit <?. x = true /\ x <=?. amber_limit = true) /\
  (amber_limit <?. x = true -> classify x = RED) /\
  (classify x = RED <-> x <=?. amber_limit = false) /\
  classify green_limit = GREEN /\
  classify amber_limit = AMBER /\
  classify (F64.dec (-70000001) 7) = GREEN /\
  classify (F64.dec (-6999999) 6) = AMBER /\
  classify (F64.dec (-64999999) 7) = RED.
Proof.
  split; [|split; [|split; [|split; [|repeat apply conj; reflexivity]]]].
  - rewrite Limits.classify_cases. split.
    + destruct (x <=?. green_limit); [reflexivity|].
      destruct (x <=?. amber_limit); discriminate.
    + now intros ->.
  - rewrite Limits.classify_cases. split.
    + intros H.
      destruct (x <=?. green_limit) eqn:Hg; [discriminate|].
      destruct (x <=?. amber_limit) eqn:Ha; [|discriminate].
      destruct (F64Facts.leb_not_nan _ _ Ha) as [Hx _].
      rewrite (F64Facts.leb_negb_ltb x green_limit Hx eq_refl) in Hg.
      now apply negb_false_iff in Hg.
    + intros [Hg Ha].
      now rewrite (F64Facts.ltb_leb_false _ _ Hg), Ha.
  - intros H. rewrite Limits.classify_cases.
    rewrite (Limits.above_amber_not_green _ H).
    now rewrite (F64Facts.ltb_leb_false _ _ H).
  - rewrite Limits.classify_cases. split.
    + destruct (x <=?. green_limit) eqn:Hg; [discriminate|].
      destruct (x <=?. amber_limit); [discriminate|reflexivity].
    + intros H. rewrite H.
      destruct (x <=?. green_limit) eqn:Hg; [|reflexivity].
      apply Limits.green_is_below_amber in Hg. congruence.
Qed.

(** C10: the zone is monotone in the predicted log conductivity: if
    [x <= y] then the zone of [x] is at most the zone of [y] in the order
    GREEN < AMBER < RED. *)
Theorem classify_monotone (x y : float) :
  x <=?. y = true -> zone_le (classify x) (classify y) = true.
Proof.
  intros Hxy. rewrite !Limits.classify_cases.
  destruct (y <=?. green_limit) eqn:Hyg.
  - now rewrite (F64Facts.leb_trans _ _ _ Hxy Hyg).
  - destruct (y <=?. amber_limit) eqn:Hya.
    + rewrite (F64Facts.leb_trans _ _ _ Hxy Hya).
      now destruct (x <=?. green_limit).
    + now destruct (x <=?. green_limit), (x <=?. amber_limit).
Qed.

Lemma classify_monotone_witness :
  green_limit <=?. amber_limit = true /\
  zone_le (classify green_limit) (classify amber_limit) = true.
Proof.
  split; [reflexivity | apply (classify_monotone green_limit amber_limit); reflexivity].
Defined.

(** ** The validation rules *)

Section ValidationClaims.

Variable power : float -> float -> float.
Variable format_4f : float -> string.
Variable format_2e : float -> string.

Local Abbreviation run := (app power format_4f format_2e).

(** C3: the composition warning is returned by the validator exactly when
    [abs(FA + SCBA + EC - 100) > 1], the sum and the difference being the
    binary64 operations of the script; a gap of at most 1 never gives the
    warning, for values within the bounds of the widgets every gap that
    is not at most 1 gives it, and the warning is on the page of a run
    exactly under the same condition. *)
Theorem composition_warning_iff (m : Model) (r : Request) (pressed : bool) :
  (In composition_warning (validate r) <->
     F64.of_Z 1 <?. composition_gap r = true) /\
  (composition_gap r <=?. F64.of_Z 1 = true ->
     ~ In composition_warning (validate r)) /\
  (in_range r = true ->
     (In composition_warning (validate r) <->
        composition_gap r <=?. F64.of_Z 1 = false)) /\
  (In (Warning composition_warning) (UI.rendered (run (inr m) r pressed)) <->
     F64.of_Z 1 <?. composition_gap r = true).
Proof.
  split; [|split; [|split]].
  - apply ValidateFacts.In_composition.
  - intros H. rewrite ValidateFacts.In_composition. unfold composition_off.
    now rewrite (F64Facts.leb_ltb_false _ _ H).
  - intros H. rewrite ValidateFacts.In_composition. unfold composition_off.
    rewrite (F64Facts.leb_negb_ltb (composition_gap r) (F64.of_Z 1)
               (ValidateFacts.composition_gap_not_nan r H) eq_refl).
    now destruct (F64.of_Z 1 <?. composition_gap r).
  - rewrite validation_warning_rendered by apply composition_not_banner.
    apply ValidateFacts.In_composition.
Qed.

(** C4: the strength warning is returned exactly when [UCS < 200]; a UCS
    of at least 200 never gives it, for values within the bounds of the
    widgets every UCS that is not at least 200 gives it, and the warning is
    on the page of a run exactly under the same condition. *)
Theorem strength_warning_iff (m : Model) (r : Request) (pressed : bool) :
  (In strength_warning (validate r) <-> UCS r <?. F64.of_Z 200 = true) /\
  (F64.of_Z 200 <=?. UCS r = true -> ~ In strength_warning (validate r)) /\
  (in_range r = true ->
     (In strength_warning (validate r) <-> F64.of_Z 200 <=?. UCS r = false)) /\
  (In (Warning strength_warning) (UI.rendered (run (inr m) r pressed)) <->
     UCS r <?. F64.of_Z 200 = true).
Proof.
  split; [|split; [|split]].
  - apply ValidateFacts.In_strength.
  - intros H. rewrite ValidateFacts.In_strength. unfold strength_low.
    now rewrite (F64Facts.leb_ltb_false _ _ H).
  - intros H. rewrite ValidateFacts.In_strength. unfold strength_low.
    destruct (ValidateFacts.in_range_finite r H) as (_ & _ & _ & _ & _ & Hucs).
    rewrite (F64Facts.leb_negb_ltb (F64.of_Z 200) (UCS r) eq_refl
               (F64Rounding.finite_not_nan _ Hucs)).
    now destruct (UCS r <?. F64.of_Z 200).
  - rewrite validation_warning_rendered by apply strength_not_banner.
    apply ValidateFacts.In_strength.
Qed.

(** C5: the Atterberg warning is returned exactly when [LL < PI]; an LL of
    at least PI never gives it, for values within the bounds of the widgets
    every LL that is not at least PI gives it, and the warning is on the
    page of a run exactly under the same condition.  The three rules are
    evaluated independently: the list is the concatenation of what each
    rule selects, and each of the eight combinations of the three warnings
    is returned for some request within the bounds of the widgets. *)
Theorem atterberg_warning_iff (m : Model) (r : Request) (pressed : bool) :
  (In atterberg_warning (validate r) <-> LL r <?. PI r = true) /\
  (PI r <=?. LL r = true -> ~ In atterberg_warning (validate r)) /\
  (in_range r = true ->
     (In atterberg_warning (validate r) <-> PI r <=?. LL r = false)) /\
  (In (Warning atterberg_warning) (UI.rendered (run (inr m) r pressed)) <->
     LL r <?. PI r = true) /\
  validate r =
    selected_warnings (composition_off r) (strength_low r) (atterberg_off r) /\
  (forall c s a : bool, exists r' : Request,
     in_range r' = true /\ validate r' = selected_warnings c s a).
Proof.
  split; [|split; [|split; [|split; [|split]]]].
  - apply ValidateFacts.In_atterberg.
  - intros H. rewrite ValidateFacts.In_atterberg. unfold atterberg_off.
    now rewrite (F64Facts.leb_ltb_false _ _ H).
  - intros H. rewrite ValidateFacts.In_atterberg. unfold atterberg_off.
    destruct (ValidateFacts.in_range_finite r H) as (_ & _ & _ & Hll & Hpi & _).
    rewrite (F64Facts.leb_negb_ltb _ _ (F64Rounding.finite_not_nan _ Hpi)
               (F64Rounding.finite_not_nan _ Hll)).
    now destruct (LL r <?. PI r).
  - rewrite validation_warning_rendered by apply atterberg_not_banner.
    apply ValidateFacts.In_atterberg.
  - apply ValidateFacts.validate_eq.
  - intros c s a.
    exists (request_of (if c then 500 else 1000) (if c then 500 else 1000) 8000
              (if a then 2000 else 7000) 3100 3800 1400 3200
              (if s then 15000 else 32100)).
    destruct c, s, a; split; vm_compute; reflexivity.
Qed.

(** C9: the list of warnings has at most three entries, is a subsequence
    of (composition, strength, Atterberg), so each rule contributes at most
    one entry and the entries keep the order of the rules, has no repeated
    entry, and holds no other text. *)
Theorem validate_shape (r : Request) :
  (length (validate r) <= 3)%nat /\
  sublist (validate r)
    [composition_warning; strength_warning; atterberg_warning] /\
  List.NoDup (validate r) /\
  (forall w, In w (validate r) ->
     w = composition_warning \/ w = strength_warning \/ w = atterberg_warning).
Proof.
  pose proof ValidateFacts.composition_strength.
  pose proof ValidateFacts.composition_atterberg.
  pose proof ValidateFacts.strength_atterberg.
  rewrite ValidateFacts.validate_eq. unfold selected_warnings.
  destruct (composition_off r), (strength_low r), (atterberg_off r);
    cbn [List.app]; (split; [cbn; lia|split; [|split]]);
    try (repeat constructor; cbn [In]; intuition congruence);
    try (cbn [In]; intuition congruence).
Qed.

End ValidationClaims.

(** ** Prediction *)

Section PredictionClaims.

Variable power : float -> float -> float.
Variable format_4f : float -> string.
Variable format_2e : float -> string.

Local Abbreviation run := (app power format_4f format_2e).
Local Abbreviation predicting := (prediction_section power format_4f format_2e).
Local Abbreviation results := (result_elements power format_4f format_2e).

(** C6: warnings never block prediction.  For every request, when the
    button is pressed and the model returns a prediction [y], the run
    renders the warnings of the request, whatever they are, then the
    button, then the result for [y] with its zone, and ends normally; the
    result is a function of [y] alone. *)
Theorem warnings_do_not_block (m : Model) (r : Request) (y : float)
    (ys : list float) :
  predict m (feature_matrix r) = inr (y :: ys) ->
  UI.rendered (run (inr m) r true) =
    UI.rendered page_header ++ UI.rendered (input_section r) ++
    map Warning (validate r) ++ [Button "Predict Hydraulic Conductivity"] ++
    results y /\
  UI.outcome (run (inr m) r true) = inr tt /\
  In (banner (classify y)) (UI.rendered (run (inr m) r true)).
Proof.
  intros H. rewrite app_loaded.
  rewrite (prediction_section_ok _ _ _ _ _ _ _ H).
  unfold UI.rendered, UI.outcome, before_prediction. cbn [fst snd].
  split; [|split]; [now rewrite <- !app_assoc|reflexivity|].
  apply List.in_or_app. right. unfold result_elements. cbn [In]. tauto.
Qed.

(** C7: the matrix handed to the model has the single row
    [FA, SCBA, EC, LL, PI, FSI, MDUW, OMC, UCS]: nine components, the i-th
    being the i-th field in the order of the specification.  The model is
    applied to this matrix and to nothing else: a model computing [k]
    yields the result for [k] of this matrix, and two models that agree on
    this matrix give the same run. *)
Theorem feature_vector_order (r : Request) (pressed : bool) :
  (exists row : list float,
     feature_matrix r = [row] /\ length row = 9%nat /\
     forall (i : nat) (f : Request -> float),
       spec_feature_order !! i = Some f -> row !! i = Some (f r)) /\
  (forall k : list (list float) -> float,
     predicting (model_of k) r =
       (results (k [map (fun f => f r) spec_feature_order]), inr tt)) /\
  (forall m1 m2 : Model,
     predict m1 (feature_matrix r) = predict m2 (feature_matrix r) ->
     run (inr m1) r pressed = run (inr m2) r pressed).
Proof.
  split; [|split].
  - exists (map (fun f => f r) spec_feature_order).
    split; [reflexivity|]. split; [reflexivity|].
    intros i f Hi. rewrite list_lookup_fmap, Hi. reflexivity.
  - intros k. now apply prediction_section_ok with (ys := []).
  - intros m1 m2 H. rewrite !app_loaded. unfold prediction_section.
    now rewrite H.
Qed.

(** C2, as the script has it: the script does not catch an exception of
    the model.  When [predict] raises, the run ends at that call with the
    same exception, having rendered the page up to the button and nothing
    of the prediction section. *)
Theorem prediction_failure_propagates (m : Model) (r : Request) (e : exn) :
  predict m (feature_matrix r) = inl e ->
  run (inr m) r true = (before_prediction r, inl e).
Proof.
  intros H. rewrite app_loaded.
  rewrite (prediction_section_raise _ _ _ _ _ _ H).
  unfold UI.rendered, UI.outcome. cbn [fst snd]. now rewrite app_nil_r.
Qed.

End PredictionClaims.

(** ** Concrete runs *)

Lemma warnings_do_not_block_witness :
  predict (const_model green_limit) (feature_matrix poor_request)
    = inr [green_limit] /\
  validate poor_request =
    [composition_warning; strength_warning; atterberg_warning] /\
  In (banner GREEN)
     (UI.rendered (Sample.app (inr (const_model green_limit)) poor_request true)).
Proof.
  split; [reflexivity|]. split; [vm_compute; reflexivity|].
  apply (warnings_do_not_block Sample.power Sample.format_4f Sample.format_2e
           (const_model green_limit) poor_request green_limit []).
  reflexivity.
Defined.

Lemma prediction_failure_propagates_witness :
  predict (failing_model shape_error) (feature_matrix default_request)
    = inl shape_error /\
  Sample.app (inr (failing_model shape_error)) default_request true =
    (before_prediction default_request, inl shape_error).
Proof.
  split; [reflexivity|].
  apply (prediction_failure_propagates Sample.power Sample.format_4f
           Sample.format_2e (failing_model shape_error) default_request
           shape_error).
  reflexivity.
Defined.

(** C2, as stated, fails: with a model that rejects the shape of its
    input, the run does not surface the failure: it ends with the
    exception of the model and shows no error message. *)
Lemma prediction_failure_not_surfaced :
  ~ failure_is_surfaced
      (Sample.app (inr (failing_model shape_error)) default_request true) /\
  UI.outcome (Sample.app (inr (failing_model shape_error)) default_request true)
    = inl shape_error /\
  forall msg,
    ~ In (Error msg)
        (UI.rendered
           (Sample.app (inr (failing_model shape_error)) default_request true)).
Proof.
  split; [|split].
  - unfold failure_is_surfaced. intros [H _]. vm_compute in H. discriminate H.
  - reflexivity.
  - intros msg. vm_compute. intuition discriminate.
Qed.

(** The composition rule works on rounded sums.  The percentages 15.37,
    79.93 and 5.70 add up to 101.00 in decimal, but their binary64 sum is
    above 101 and the warning is returned; the binary64 values of 10.33,
    41.79 and 48.88 add up to more than 101 exactly, but their rounded sum
    is 101 and no warning is returned. *)
Remark composition_gap_is_rounded :
  (1537 + 7993 + 570 = 101 * 100 /\
   in_range edge_request_high = true /\
   In composition_warning (validate edge_request_high)) /\
  (F64.scaled 49 (FA edge_request_low) + F64.scaled 49 (SCBA edge_request_low) +
     F64.scaled 49 (EC edge_request_low) > 101 * 2 ^ 49 /\
   in_range edge_request_low = true /\
   composition_gap edge_request_low = F64.of_Z 1 /\
   ~ In composition_warning (validate edge_request_low)).
Proof.
  split.
  - split; [reflexivity|]. split; [vm_compute; reflexivity|].
    vm_compute. auto.
  - split; [vm_compute; reflexivity|]. split; [vm_compute; reflexivity|].
    split; [vm_compute; reflexivity|].
    rewrite ValidateFacts.In_composition. vm_compute. discriminate.
Qed.

(** ** The zones in terms of the two limits *)

Module ZoneFacts.

Lemma green_iff (x : float) : classify x = GREEN <-> x <=?. green_limit = true.
Proof.
  rewrite Limits.classify_cases.
  destruct (x <=?. green_limit); [tauto|].
  destruct (x <=?. amber_limit); split; discriminate.
Qed.

Lemma red_iff (x : float) : classify x = RED <-> x <=?. amber_limit = false.
Proof.
  rewrite Limits.classify_cases.
  destruct (x <=?. green_limit) eqn:Hg.
  - rewrite (Limits.green_is_below_amber _ Hg). split; discriminate.
  - destruct (x <=?. amber_limit); [split; discriminate|tauto].
Qed.

Lemma amber_iff (x : float) :
  classify x = AMBER <-> green_limit <?. x = true /\ x <=?. amber_limit = true.
Proof.
  split.
  - intros H. assert (Hg : x <=?. green_limit = false).
    { destruct (x <=?. green_limit) eqn:E; [|reflexivity].
      apply green_iff in E. congruence. }
    assert (Ha : x <=?. amber_limit = true).
    { destruct (x <=?. amber_limit) eqn:E; [reflexivity|].
      apply red_iff in E. congruence. }
    split; [|exact Ha].
    destruct (F64Facts.leb_not_nan _ _ Ha) as [Hx _].
    rewrite (F64Facts.leb_negb_ltb x green_limit Hx eq_refl) in Hg.
    now apply negb_false_iff in Hg.
  - intros [Hg Ha]. unfold classify.
    now rewrite (F64Facts.ltb_leb_false _ _ Hg), Hg, Ha.
Qed.

End ZoneFacts.

(** ** Further properties of the script *)

Section ScriptProperties.

Variable power : float -> float -> float.
Variable format_4f : float -> string.
Variable format_2e : float -> string.

Local Abbreviation run := (app power format_4f format_2e).
Local Abbreviation predicting := (prediction_section power format_4f format_2e).
Local Abbreviation results := (result_elements power format_4f format_2e).

Lemma no_verdict_before (r : Request) (e : element) :
  In e (before_prediction r) -> is_verdict e = false.
Proof.
  unfold before_prediction. rewrite !List.in_app_iff, List.in_map_iff.
  intros [H|[H|[(w & <- & _)|[<-|[]]]]]; try reflexivity.
  - revert H. cbv. intuition (subst; reflexivity).
  - revert H. destruct r. vm_compute. intuition (subst; reflexivity).
Qed.

(** If the model cannot be loaded, the run ends with the exception of the
    load after the page configuration, the title and the regulatory note:
    no input, warning or button is rendered, and neither the values of the
    inputs nor the button matter. *)
Theorem load_failure_stops_run (e : exn) (r r' : Request) (pressed pressed' : bool) :
  UI.outcome (run (inl e) r pressed) = inl e /\
  UI.rendered (run (inl e) r pressed) = UI.rendered page_header /\
  length (UI.rendered (run (inl e) r pressed)) = 3%nat /\
  (forall x, In x (UI.rendered (run (inl e) r pressed)) ->
     widget_label x = None /\ x <> Button "Predict Hydraulic Conductivity" /\
     forall w, x <> Warning w) /\
  run (inl e) r pressed = run (inl e) r' pressed'.
Proof.
  rewrite !app_not_loaded. unfold UI.outcome, UI.rendered. cbn [fst snd].
  repeat apply conj; try reflexivity.
  cbv [page_header UI.bind UI.emit fst List.app]. cbn [In].
  intros x [<-|[<-|[<-|[]]]]; repeat apply conj; try reflexivity;
    try discriminate; intros w; discriminate.
Qed.

(** Without a press of the button the model is not consulted: the run
    renders the page up to the button and ends normally, whatever the
    model would do, and shows no verdict. *)
Theorem no_press_no_prediction (m : Model) (r : Request) :
  run (inr m) r false = (before_prediction r, inr tt) /\
  (forall m', run (inr m') r false = run (inr m) r false) /\
  (forall x, In x (UI.rendered (run (inr m) r false)) -> is_verdict x = false).
Proof.
  rewrite app_loaded. repeat apply conj; [reflexivity| |].
  - intros m'. now rewrite app_loaded.
  - intros x. apply no_verdict_before.
Qed.

(** Everything up to the button is rendered in every run with a loaded
    model, whatever the model does afterwards: the inputs and the warnings
    stay on the page also when the prediction fails. *)
Theorem page_before_prediction_kept (m : Model) (r : Request) (pressed : bool) :
  exists rest,
    UI.rendered (run (inr m) r pressed) = before_prediction r ++ rest /\
    (rest = [] \/ exists y, rest = results y).
Proof.
  rewrite app_loaded. destruct pressed; unfold UI.rendered at 1; cbn [fst].
  - exists (UI.rendered (predicting m r)). split; [reflexivity|].
    apply rendered_predicting.
  - exists []. split; [now rewrite app_nil_r|now left].
Qed.

(** A model that returns an empty array makes the indexing [[0]] fail: the
    run ends with [IndexError] and renders nothing of the prediction
    section. *)
Theorem empty_prediction_fails (m : Model) (r : Request) :
  predict m (feature_matrix r) = inr [] ->
  run (inr m) r true = (before_prediction r, inl IndexError).
Proof.
  intros H. rewrite app_loaded.
  rewrite (prediction_section_empty _ _ _ _ _ H).
  unfold UI.rendered, UI.outcome. cbn [fst snd]. now rewrite app_nil_r.
Qed.

Lemma verdict_results (y : float) (x : element) :
  In x (results y) -> is_verdict x = true ->
  x = banner (classify y) /\ classify y <> AMBER.
Proof.
  unfold result_elements. cbn [In].
  intros [<-|[<-|[<-|[<-|[<-|[]]]]]]; try discriminate.
  destruct (classify y); try discriminate; now split.
Qed.


End ScriptProperties.

(** ** Further properties of the inputs and the validator *)

(** The input section renders its subheader and nine number inputs with
    pairwise distinct labels, each declaring a value within its own bounds;
    what it renders does not depend on the current values, and it returns
    the current values unchanged. *)
Theorem input_section_widgets (cur : Request) :
  UI.outcome (input_section cur) = inr cur /\
  (exists ws,
     UI.rendered (input_section cur) = Subheader "Input Parameters" :: ws /\
     length ws = 9%nat /\
     forallb widget_consistent ws = true /\
     List.NoDup (map widget_label ws)) /\
  (forall cur', UI.rendered (input_section cur') = UI.rendered (input_section cur)).
Proof.
  split; [apply input_section_value|]. split.
  - eexists. split; [destruct cur; reflexivity|].
    split; [reflexivity|]. split; [vm_compute; reflexivity|].
    cbn [List.app map widget_label].
    repeat (constructor; [cbn [In]; intuition discriminate|]).
    constructor.
  - intros cur'. now destruct cur, cur'.
Qed.

(** With every input at the value its widget declares, the request is
    within the bounds and the validator returns no warning. *)
Theorem declared_values_pass_validation (cur : Request) :
  feature_matrix default_request =
    [declared_values (UI.rendered (input_section cur))] /\
  in_range default_request = true /\
  validate default_request = [].
Proof.
  split; [destruct cur; vm_compute; reflexivity|].
  split; vm_compute; reflexivity.
Qed.

(** For values within the bounds of the widgets, every feature handed to
    the model is finite: the model never receives a NaN or an infinity. *)
Theorem in_range_features_finite (r : Request) :
  in_range r = true ->
  forall row x, In row (feature_matrix r) -> In x row -> F64.is_finite x = true.
Proof.
  unfold in_range. rewrite !andb_true_iff.
  intros [[[[[[[[H1 H2] H3] H4] H5] H6] H7] H8] H9] row x [<-|[]].
  cbn [In].
  intros [<-|[<-|[<-|[<-|[<-|[<-|[<-|[<-|[<-|[]]]]]]]]]];
    eapply ValidateFacts.between_finite; try eassumption; reflexivity.
Qed.

Lemma in_range_features_finite_witness :
  in_range default_request = true /\
  F64.is_finite (UCS default_request) = true.
Proof.
  split; [vm_compute; reflexivity|].
  apply (in_range_features_finite default_request
           ltac:(vm_compute; reflexivity)
           [FA default_request; SCBA default_request; EC default_request;
            LL default_request; PI default_request; FSI default_request;
            MDUW default_request; OMC default_request; UCS default_request]).
  - left. reflexivity.
  - cbn [In]. tauto.
Defined.

(** The validator looks at FA, SCBA, EC, UCS, LL and PI only: the free
    swell index, the dry unit weight and the moisture content never change
    its warnings, though they are handed to the model. *)
Theorem validate_ignores_swell_compaction (r : Request) (fsi mduw omc : float) :
  validate (with_swell_compaction r fsi mduw omc) = validate r /\
  feature_matrix (with_swell_compaction r fsi mduw omc) =
    [[FA r; SCBA r; EC r; LL r; PI r; fsi; mduw; omc; UCS r]].
Proof. split; reflexivity. Qed.

(** The validation section never raises and renders one warning element
    per entry of the validator's list, in the same order, so at most three
    elements and none when the list is empty. *)
Theorem validation_section_renders (r : Request) :
  UI.outcome (validation_section r) = inr tt /\
  UI.rendered (validation_section r) = map Warning (validate r) /\
  (length (UI.rendered (validation_section r)) <= 3)%nat /\
  (validate r = [] -> UI.rendered (validation_section r) = []).
Proof.
  rewrite validation_section_eq. unfold UI.outcome, UI.rendered. cbn [fst snd].
  repeat apply conj; try reflexivity.
  - rewrite length_map, ValidateFacts.validate_eq. unfold selected_warnings.
    destruct (composition_off r), (strength_low r), (atterberg_off r); cbn; lia.
  - now intros ->.
Qed.

(** A prediction that is not finite still gets a zone: NaN and the
    positive infinity are RED, the negative infinity is GREEN; none is
    AMBER. *)
Theorem nonfinite_prediction_zone (y : float) :
  F64.is_finite y = false ->
  classify y = match y with S754_infinity true => GREEN | _ => RED end.
Proof. destruct y as [s|[]| |s m e]; try discriminate; reflexivity. Qed.

Lemma nonfinite_prediction_zone_witness :
  F64.is_finite S754_nan = false /\ classify S754_nan = RED.
Proof.
  split; [reflexivity | apply (nonfinite_prediction_zone S754_nan); reflexivity].
Defined.

Lemma empty_prediction_fails_witness :
  predict empty_model (feature_matrix default_request) = inr [] /\
  Sample.app (inr empty_model) default_request true =
    (before_prediction default_request, inl IndexError).
Proof.
  split; [reflexivity|].
  apply (empty_prediction_fails Sample.power Sample.format_4f Sample.format_2e
           empty_model default_request).
  reflexivity.
Defined.

